(** * Global-styles panels: dimensions (padding, margin, block gap) and border

    A shallow embedding of the value-transformation layer of
    [packages/edit-site/src/components/global-styles/dimensions-panel.js]
    and of the border panel of the same directory, with the properties of
    the specification stated over it.

    JavaScript objects are finite maps from property names to values: a
    key that is present with the value [undefined] differs from a key that
    is missing, and [Object.keys] sees the difference.  Callbacks that call
    [setStyle] or a setter of [useStyle] return the list of calls they
    make, in order; the style store that executes them is a separate
    definition. *)

From stdpp Require Import gmap strings list fin_maps pretty.

Set Warnings "-register-all".
Open Scope string_scope.
Open Scope list_scope.

(** ** JavaScript values *)

Module JS.

(** Numbers: only [ToBoolean] is ever applied to a number in these
    files, so a finite number is kept as an integer and [NaN] apart. *)
Inductive number :=
  | NaN
  | Num (z : Z).

Inductive value :=
  | VUndefined
  | VNull
  | VBool (b : bool)
  | VNum (n : number)
  | VStr (s : string)
  | VObj (o : gmap string value).

Abbreviation obj := (gmap string value).

(** [!! v] *)
Definition ToBoolean (v : value) : bool :=
  match v with
  | VUndefined | VNull => false
  | VBool b => b
  | VNum NaN => false
  | VNum (Num z) => negb (z =? 0)%Z
  | VStr s => negb (String.eqb s "")
  | VObj _ => true
  end.

(** [typeof v] *)
Definition typeof (v : value) : string :=
  match v with
  | VUndefined => "undefined"
  | VNull => "object"
  | VBool _ => "boolean"
  | VNum _ => "number"
  | VStr _ => "string"
  | VObj _ => "object"
  end.

(** The names of the methods that an ordinary object inherits from
    [Object.prototype].  What the source reads under one of these names,
    from an object that does not own it, is the inherited function, which
    [value] does not represent. *)
Definition Object_prototype_methods : list string :=
  [ "constructor"; "__defineGetter__"; "__defineSetter__"; "hasOwnProperty";
    "__lookupGetter__"; "__lookupSetter__"; "isPrototypeOf";
    "propertyIsEnumerable"; "toString"; "valueOf"; "toLocaleString" ].

(** [o[k]] on an ordinary object, for a name [k] that is not one of
    [Object_prototype_methods] nor [__proto__]: the own property, or
    [undefined].  The statements about the value read under an arbitrary
    name are made for such names. *)
Definition get (o : obj) (k : string) : value :=
  default VUndefined (o !! k).

(** [o[k] = v] on an ordinary object: the own property [k] is created or
    overwritten, except for [__proto__], where the assignment is taken by
    the setter of [Object.prototype] and no own property is created.  An
    object is the finite map of its own properties; own properties named
    [__proto__] are left out of the model. *)
Definition set_member (o : obj) (k : string) (v : value) : obj :=
  if String.eqb k "__proto__" then o else <[k := v]> o.

(** [v?.k]: [undefined] on a nullish [v].  The names read this way in
    the panels are row, column, top, left, radius, width, style and
    color, which no primitive owns. *)
Definition opt_get (v : value) (k : string) : value :=
  match v with
  | VObj o => get o k
  | _ => VUndefined
  end.

(** [v || undefined] *)
Definition or_undefined (v : value) : value :=
  if ToBoolean v then v else VUndefined.

(** Completion of an expression that may throw. *)
Inductive completion (A : Type) :=
  | Normal (a : A)
  | TypeError.
Arguments Normal {A} a.
Arguments TypeError {A}.

Definition bind {A B} (c : completion A) (k : A -> completion B)
  : completion B :=
  match c with
  | Normal a => k a
  | TypeError => TypeError
  end.

(** The own enumerable string-keyed properties, as [Object.entries]
    lists them: none for a number or a boolean, the indices for a
    string, a [TypeError] for [undefined] and [null]. *)
Definition own_entries (v : value) : completion (list (string * value)) :=
  match v with
  | VUndefined | VNull => TypeError
  | VBool _ | VNum _ => Normal []
  | VStr s =>
      Normal (imap (fun i a => (pretty i, VStr (String a EmptyString)))
                   (String.list_ascii_of_string s))
  | VObj o => Normal (map_to_list o)
  end.

(** [Object.keys(v)] *)
Definition Object_keys (v : value) : completion (list string) :=
  bind (own_entries v) (fun es => Normal (es.*1)).

(** A two-element array [[a, b]], an object with the keys 0 and 1. *)
Definition array2 (a b : value) : value :=
  VObj (<["1" := b]> (<["0" := a]> ∅)).

(** [Object.entries(v)]: one [[key, value]] array per own property. *)
Definition Object_entries (v : value) : completion (list value) :=
  bind (own_entries v)
       (fun es => Normal (map (fun e => array2 (VStr e.1) e.2) es)).

(** [l.length] as a number value. *)
Definition length_value {A} (l : list A) : value :=
  VNum (Num (Z.of_nat (length l))).

(** [a && b] *)
Definition js_and (a b : value) : value :=
  if ToBoolean a then b else a.

(** [a || b] *)
Definition js_or (a b : value) : value :=
  if ToBoolean a then a else b.

(** [l.includes( x )] on an array of strings. *)
Definition includes (l : list string) (x : string) : bool :=
  existsb (String.eqb x) l.

End JS.

Import JS.

(** ** The style store *)

(** One call of [setStyle( name, path, value )], or of the setter that
  [useStyle( path, name )] returns. *)
Record call := Call {
call_name : string;
call_path : string;
call_value : value;
}.

Module Store.

Abbreviation store := (gmap (string * string) value).

(** Modelled from the spec: the style store is "a key/value read/write
    interface", [get(entityId, propertyPath)] and
    [set(entityId, propertyPath, value)]; its code is not among the
    sources.  A read returns the value last written under the same
    entity and path, and absent when nothing was written. *)
Definition getStyle (st : store) (name path : string) : value :=
  default VUndefined (st !! (name, path)).

(** Modelled from the spec: [set(entityId, propertyPath, value)] of the
    same store. *)
Definition perform (st : store) (c : call) : store :=
  <[(call_name c, call_path c) := call_value c]> st.

Definition run (cs : list call) (st : store) : store :=
  foldl perform st cs.

End Store.

Import Store.

(** ** dimensions-panel.js *)

Module Dimensions.

Definition AXIAL_SIDES : list string := ["horizontal"; "vertical"].

(** The body of the [forEach] callback of [filterValuesBySides]: the two
    axis tests, then the assignment [filteredValues[ side ] = values[ side ]],
    which no test guards.  The literal names top, bottom, left and right
    are plain own properties; the computed name goes through
    [set_member]. *)
Definition copy_side (values filteredValues : obj) (side : string) : obj :=
  let filteredValues :=
    if String.eqb side "vertical"
    then <["bottom" := get values "bottom"]>
           (<["top" := get values "top"]> filteredValues)
    else filteredValues in
  let filteredValues :=
    if String.eqb side "horizontal"
    then <["right" := get values "right"]>
           (<["left" := get values "left"]> filteredValues)
    else filteredValues in
  set_member filteredValues side (get values side).

(** [filterValuesBySides( values, sides )].  [sides] is [undefined] or an
    array of strings ([None] when [! sides] holds); [values] is the object
    the box control hands to [onChange], or [{}] on reset. *)
Definition filterValuesBySides (values : obj) (sides : option (list string))
  : obj :=
  match sides with
  | None => values
  | Some sides => foldl (copy_side values) ∅ sides
  end.

(** The body of the [forEach] callback of [filterGapValuesBySides]. *)
Definition copy_axis (values : value) (filteredValues : obj) (side : string)
  : obj :=
  let filteredValues :=
    if String.eqb side "horizontal"
    then <["column" := opt_get values "left"]> filteredValues
    else filteredValues in
  if String.eqb side "vertical"
  then <["row" := opt_get values "top"]> filteredValues
  else filteredValues.

(** [filterGapValuesBySides( values, sides )] *)
Definition filterGapValuesBySides (values : value)
  (sides : option (list string)) : obj :=
  match sides with
  | None =>
      <["column" := opt_get values "left"]>
        (<["row" := opt_get values "top"]> ∅)
  | Some sides => foldl (copy_axis values) ∅ sides
  end.

(** The object literal [{ top: t, right: r, bottom: b, left: l }]. *)
Definition box (t r b l : value) : obj :=
  <["left" := l]> (<["bottom" := b]> (<["right" := r]> (<["top" := t]> ∅))).

(** [splitStyleValue( value )] *)
Definition splitStyleValue (value : value) : JS.value :=
  if ToBoolean value && String.eqb (typeof value) "string"
  then VObj (box value value value value)
  else value.

(** [splitGapStyleValue( value )] *)
Definition splitGapStyleValue (value : value) : JS.value :=
  if ToBoolean value && String.eqb (typeof value) "string"
  then VObj (box value value value value)
  else VObj (box (opt_get value "row") (opt_get value "column")
                 (opt_get value "row") (opt_get value "column")).

(** [!! values && Object.keys( values ).length], the body shared by
    [hasPaddingValue], [hasMarginValue] and [hasGapValue]. *)
Definition has_keys (values : value) : completion value :=
  if ToBoolean values
  then bind (Object_keys values) (fun keys => Normal (length_value keys))
  else Normal (VBool false).

(** The panel of one block: [name] is [context.name], [useCustomSides] the
    hook of the block editor, [st] the store that [getStyle] reads during
    this render. *)
Section DimensionsPanel.

Variable useCustomSides : string -> string -> option (list string).
Variable name : string.
Variable st : store.

Definition paddingValues : value := splitStyleValue (getStyle st name "padding").
Definition paddingSides : option (list string) := useCustomSides name "padding".

Definition setPaddingValues (newPaddingValues : obj) : list call :=
  let padding := filterValuesBySides newPaddingValues paddingSides in
  [Call name "padding" (VObj padding)].
Definition resetPaddingValue : list call := setPaddingValues ∅.
Definition hasPaddingValue : completion value := has_keys paddingValues.

Definition marginValues : value := splitStyleValue (getStyle st name "margin").
Definition marginSides : option (list string) := useCustomSides name "margin".

Definition setMarginValues (newMarginValues : obj) : list call :=
  let margin := filterValuesBySides newMarginValues marginSides in
  [Call name "margin" (VObj margin)].
Definition resetMarginValue : list call := setMarginValues ∅.
Definition hasMarginValue : completion value := has_keys marginValues.

Definition gapValues : value :=
  splitGapStyleValue (getStyle st name "--wp--style--block-gap").
Definition gapSides : option (list string) := useCustomSides name "blockGap".

Definition setGapValues (newGapValues : value) : list call :=
  let gap := filterGapValuesBySides newGapValues gapSides in
  [Call name "--wp--style--block-gap" (VObj gap)].
Definition resetGapValue : list call := setGapValues (VObj ∅).
Definition hasGapValue : completion value := has_keys gapValues.

Definition resetAll : list call :=
  resetPaddingValue ++ resetMarginValue ++ resetGapValue.

End DimensionsPanel.

(** The argument [{ name, supports }] of the [useHas...] hooks. *)
Record context := {
  ctx_name : string;
  ctx_supports : list string;
}.

(** [useSetting( path, name )] is the hook of [../editor/utils]. *)
Section Visibility.

Variable useSetting : string -> string -> value.

Definition useHasPadding (ctx : context) : value :=
  let settings := useSetting "spacing.customPadding" (ctx_name ctx) in
  js_and settings (VBool (includes (ctx_supports ctx) "padding")).

Definition useHasMargin (ctx : context) : value :=
  let settings := useSetting "spacing.customMargin" (ctx_name ctx) in
  js_and settings (VBool (includes (ctx_supports ctx) "margin")).

Definition useHasGap (ctx : context) : value :=
  let settings := useSetting "spacing.blockGap" (ctx_name ctx) in
  js_and settings
    (VBool (includes (ctx_supports ctx) "--wp--style--block-gap")).

Definition useHasDimensionsPanel (ctx : context) : value :=
  let hasPadding := useHasPadding ctx in
  let hasMargin := useHasMargin ctx in
  let hasGap := useHasGap ctx in
  js_or (js_or hasPadding hasMargin) hasGap.

End Visibility.

(** [sides && sides.some( ( side ) => AXIAL_SIDES.includes( side ) )]:
    [None] is the falsy [sides] itself, [Some b] the boolean of [some]. *)
Definition some_axial (sides : option (list string)) : option bool :=
  match sides with
  | None => None
  | Some sides => Some (existsb (fun side => includes AXIAL_SIDES side) sides)
  end.

Section Axial.

Variable useCustomSides : string -> string -> option (list string).
Variable name : string.

Definition isAxialPadding : option bool :=
  some_axial (paddingSides useCustomSides name).
Definition isAxialMargin : option bool :=
  some_axial (marginSides useCustomSides name).
Definition isAxialGap : option bool :=
  some_axial (gapSides useCustomSides name).

End Axial.

End Dimensions.

(** ** The border panel *)

Module Border.

Definition MIN_BORDER_WIDTH : Z := 0.

(** The panel of one block.  [userBorderStyles] is what
    [useStyle( 'border', name, 'user' )] returns first; [st] is the store
    the other [useStyle] hooks read during this render.  The setter that
    [useStyle( path, name )] returns is the call of the store at [path]. *)
Section BorderPanel.

Variable name : string.
Variable userBorderStyles : value.
Variable st : store.

Definition createHasValueCallback (feature : string) : value :=
  VBool (ToBoolean (opt_get userBorderStyles feature)).

Definition createResetCallback (setStyle : value -> list call) : list call :=
  setStyle VUndefined.

Definition handleOnChange (setStyle : value -> list call) (value : value)
  : list call :=
  setStyle (or_undefined value).

Definition borderWidthValue : value := getStyle st name "border.width".
Definition setBorderWidth (v : value) : list call :=
  [Call name "border.width" v].

Definition borderStyle : value := getStyle st name "border.style".
Definition setBorderStyle (v : value) : list call :=
  [Call name "border.style" v].

Definition handleOnChangeWithStyle (setStyle : value -> list call)
  (value : value) : list call :=
  (if ToBoolean value && negb (ToBoolean borderStyle)
   then setBorderStyle (VStr "solid")
   else [])
  ++ setStyle (or_undefined value).

Definition borderColor : value := getStyle st name "border.color".
Definition setBorderColor (v : value) : list call :=
  [Call name "border.color" v].

Definition borderRadiusValues : value := getStyle st name "border.radius".
Definition setBorderRadius (v : value) : list call :=
  [Call name "border.radius" v].

Definition hasBorderRadius : completion value :=
  let borderValues := opt_get userBorderStyles "radius" in
  if String.eqb (typeof borderValues) "object"
  then bind (Object_entries borderValues)
            (fun entries => Normal (VBool (existsb ToBoolean entries)))
  else Normal (VBool (ToBoolean borderValues)).

Definition resetAll : list call :=
  setBorderColor VUndefined ++ setBorderRadius VUndefined
  ++ setBorderStyle VUndefined ++ setBorderWidth VUndefined.

(** The [onChange] of the width, style, colour and radius controls. *)
Definition widthOnChange : value -> list call :=
  handleOnChangeWithStyle setBorderWidth.
Definition styleOnChange : value -> list call :=
  handleOnChange setBorderStyle.
Definition colorOnChange : value -> list call :=
  handleOnChangeWithStyle setBorderColor.
Definition radiusOnChange : value -> list call :=
  handleOnChange setBorderRadius.

End BorderPanel.

(** [useSetting( path, name )[ 0 ]] and [getSupportedGlobalStylesPanels]
    are the hooks of [./hooks]. *)
Section BorderSupport.

Variable useSetting : string -> string -> value.
Variable getSupportedGlobalStylesPanels : string -> list string.

Definition useHasBorderColorControl (name : string) : value :=
  let supports := getSupportedGlobalStylesPanels name in
  js_and (useSetting "border.color" name)
         (VBool (includes supports "borderColor")).

Definition useHasBorderRadiusControl (name : string) : value :=
  let supports := getSupportedGlobalStylesPanels name in
  js_and (useSetting "border.radius" name)
         (VBool (includes supports "borderRadius")).

Definition useHasBorderStyleControl (name : string) : value :=
  let supports := getSupportedGlobalStylesPanels name in
  js_and (useSetting "border.style" name)
         (VBool (includes supports "borderStyle")).

Definition useHasBorderWidthControl (name : string) : value :=
  let supports := getSupportedGlobalStylesPanels name in
  js_and (useSetting "border.width" name)
         (VBool (includes supports "borderWidth")).

Definition useHasBorderPanel (name : string) : bool :=
  let controls :=
    [ useHasBorderColorControl name;
      useHasBorderRadiusControl name;
      useHasBorderStyleControl name;
      useHasBorderWidthControl name ] in
  existsb ToBoolean controls.

End BorderSupport.

(** One entry [{ name, colors }] of the list of palettes. *)
Record palette := {
  palette_name : string;
  palette_colors : list value;
}.

(** [colors && colors.length], for [colors] an array or [undefined]
    ([None]). *)
Definition has_length (colors : option (list value)) : bool :=
  match colors with
  | Some (_ :: _) => true
  | _ => false
  end.

(** The function that [useMultiOriginColors] memoizes; the four settings
    it reads and the translation [_x] are its inputs. *)
Section MultiOriginColors.

Variable _x : string -> string -> string.
Variables customColors themeColors defaultColors : option (list value).
Variable defaultPaletteEnabled : value.

Definition useMultiOriginColors : list palette :=
  let result := [] in
  let result :=
    if has_length themeColors
    then result ++ [ {| palette_name :=
                          _x "Theme" "Indicates this palette comes from the theme.";
                        palette_colors := default [] themeColors |} ]
    else result in
  let result :=
    if ToBoolean defaultPaletteEnabled && has_length defaultColors
    then result ++ [ {| palette_name :=
                          _x "Default" "Indicates this palette comes from WordPress.";
                        palette_colors := default [] defaultColors |} ]
    else result in
  let result :=
    if has_length customColors
    then result ++ [ {| palette_name :=
                          _x "Custom" "Indicates this palette comes from the theme.";
                        palette_colors := default [] customColors |} ]
    else result in
  result.

End MultiOriginColors.

End Border.

(** ** Vocabulary of the specification *)

Definition px4 : value := VStr "4px".

(** The four edges. *)
Definition Sides : list string := ["top"; "right"; "bottom"; "left"].

(** A mapping whose keys are exactly the four sides; a value may be
    absent. *)
Definition FullSideMapping (o : obj) : Prop :=
  dom o = list_to_set (C := gset string) Sides.


(** The all-absent full mapping. *)
Definition all_absent : obj :=
  Dimensions.box VUndefined VUndefined VUndefined VUndefined.

(** What the hosting panel item takes a [hasValue] callback to say. *)
Definition reports (c : completion value) : option bool :=
  match c with
  | Normal v => Some (ToBoolean v)
  | TypeError => None
  end.

(** The stored values under which [hasPaddingValue] and [hasMarginValue]
    count at least one key: a non-empty string, which is split into four
    keys, or an object that has a key. *)
Definition stored_has_key (v : value) : Prop :=
  (∃ s, v = VStr s ∧ s ≠ "") ∨ (∃ o, v = VObj o ∧ o ≠ ∅).

(** [covers side k]: processing the entry [side] assigns the key [k]. *)
Definition covers (side k : string) : bool :=
  (String.eqb side k && negb (String.eqb side "__proto__"))
  || (String.eqb side "vertical" && (String.eqb k "top" || String.eqb k "bottom"))
  || (String.eqb side "horizontal" && (String.eqb k "left" || String.eqb k "right")).

(** * Properties *)

(** Closes [x ∉ l] for a literal list [l] and a literal [x]. *)
Ltac not_elem_of_literal :=
  let H := fresh in
  intros H;
  repeat (apply elem_of_cons in H as [H|H]; [discriminate H|]);
  by apply elem_of_nil in H.

(** Closes [x ∈ l] for a literal list [l] and a literal [x]. *)
Ltac elem_of_literal := unfold Sides, Dimensions.AXIAL_SIDES; by repeat constructor.

Section Examples.

Import Dimensions Border.

Example split_uniform :
  splitStyleValue px4 = VObj (box px4 px4 px4 px4).
Proof. reflexivity. Qed.

Example split_empty_string : splitStyleValue (VStr "") = VStr "".
Proof. reflexivity. Qed.

Example splitGap_absent : splitGapStyleValue VUndefined = VObj all_absent.
Proof. reflexivity. Qed.

Example filter_no_subset : filterValuesBySides all_absent None = all_absent.
Proof. reflexivity. Qed.

Example filter_horizontal_edit :
  filterValuesBySides (box px4 (VStr "8px") px4 px4) (Some ["horizontal"])
  = <["horizontal" := VUndefined]>
      (<["right" := VStr "8px"]> (<["left" := px4]> ∅)).
Proof. reflexivity. Qed.

Example filter_sides_reset :
  filterValuesBySides ∅ (Some ["top"; "bottom"])
  = <["bottom" := VUndefined]> (<["top" := VUndefined]> ∅).
Proof. reflexivity. Qed.

Example filter_proto_entry_no_key :
  filterValuesBySides (box px4 px4 px4 px4) (Some ["__proto__"]) = ∅.
Proof. reflexivity. Qed.

Example has_keys_absent_top :
  has_keys (VObj (<["top" := VUndefined]> ∅)) = Normal (VNum (Num 1)).
Proof. reflexivity. Qed.

Example radius_null_throws :
  hasBorderRadius (VObj (<["radius" := VNull]> ∅)) = TypeError.
Proof. reflexivity. Qed.

Example radius_string :
  hasBorderRadius (VObj (<["radius" := px4]> ∅)) = Normal (VBool true).
Proof. reflexivity. Qed.

Example width_edit_with_style :
  widthOnChange "core/group"
    (<[("core/group", "border.style") := VStr "dashed"]> ∅) (VStr "2px")
  = [Call "core/group" "border.width" (VStr "2px")].
Proof. reflexivity. Qed.

End Examples.

Section Filter.

Import Dimensions.

Lemma all_absent_full : FullSideMapping all_absent.
Proof. unfold FullSideMapping, all_absent, box. rewrite !dom_insert_L. set_solver. Qed.

Lemma full_get_other (edited : obj) (k : string) :
  FullSideMapping edited -> k ∉ Sides -> get edited k = VUndefined.
Proof.
  intros Hfull Hk. unfold get.
  destruct (edited !! k) eqn:E; [|done].
  exfalso. apply Hk.
  assert (k ∈ dom edited) as Hd by (apply elem_of_dom; eauto).
  rewrite Hfull in Hd. by apply elem_of_list_to_set in Hd.
Qed.

Lemma filter_snoc (values : obj) (sides : list string) (side : string) :
  filterValuesBySides values (Some (sides ++ [side]))
  = copy_side values (filterValuesBySides values (Some sides)) side.
Proof. unfold filterValuesBySides. by rewrite foldl_app. Qed.

Lemma copy_side_lookup (values acc : obj) (side k : string) :
  copy_side values acc side !! k
  = if covers side k then Some (get values k) else acc !! k.
Proof.
  unfold copy_side, covers, set_member.
  destruct (String.eqb_spec side "__proto__") as [Hp|Hp].
  - subst side. rewrite andb_false_r. cbn [orb andb String.eqb Ascii.eqb Bool.eqb].
    done.
  - rewrite andb_true_r, lookup_insert.
    destruct (String.eqb_spec side k) as [Heq|Hne].
    + subst k. by rewrite decide_True.
    + rewrite decide_False by done. cbn [orb].
      destruct (String.eqb_spec side "horizontal") as [Hh|Hh];
        destruct (String.eqb_spec side "vertical") as [Hv|Hv];
        cbn [andb orb]; rewrite ?lookup_insert;
        repeat match goal with
               | |- context [String.eqb k ?s] =>
                   destruct (String.eqb_spec k s)
               end;
        repeat case_decide; cbn [orb]; congruence.
Qed.

Lemma filter_lookup (values : obj) (sides : list string) (k : string) :
  filterValuesBySides values (Some sides) !! k
  = if existsb (fun side => covers side k) sides
    then Some (get values k) else None.
Proof.
  induction sides as [|side sides IH] using rev_ind.
  - apply lookup_empty.
  - rewrite filter_snoc, copy_side_lookup, IH, existsb_app. cbn [existsb].
    rewrite orb_false_r.
    destruct (covers side k); [by rewrite orb_true_r|by rewrite orb_false_r].
Qed.

Lemma covers_self (side : string) :
  side ≠ "__proto__" -> covers side side = true.
Proof.
  intros Hp. unfold covers. apply String.eqb_neq in Hp.
  by rewrite String.eqb_refl, Hp.
Qed.

(** C1, as the code has it: for a full side mapping [edited] and a present
    subset, the entries are processed in order from the empty object; a
    [vertical] entry assigns top and bottom from [edited] and also the key
    vertical, with an absent value; a [horizontal] entry assigns left and
    right and also the key horizontal, absent; a discrete side assigns that
    one edge.  Filtering the uniform 4px mapping by [vertical] gives top,
    bottom and an absent vertical. *)
Theorem filter_entries_in_order (edited : obj) :
  FullSideMapping edited ->
  filterValuesBySides edited (Some []) = ∅
  ∧ (∀ sides,
       filterValuesBySides edited (Some (sides ++ ["vertical"]))
       = <["vertical" := VUndefined]>
           (<["bottom" := get edited "bottom"]>
              (<["top" := get edited "top"]>
                 (filterValuesBySides edited (Some sides)))))
  ∧ (∀ sides,
       filterValuesBySides edited (Some (sides ++ ["horizontal"]))
       = <["horizontal" := VUndefined]>
           (<["right" := get edited "right"]>
              (<["left" := get edited "left"]>
                 (filterValuesBySides edited (Some sides)))))
  ∧ (∀ sides side, side ∈ Sides ->
       filterValuesBySides edited (Some (sides ++ [side]))
       = <[side := get edited side]>
           (filterValuesBySides edited (Some sides)))
  ∧ filterValuesBySides (box px4 px4 px4 px4) (Some ["vertical"])
    = <["vertical" := VUndefined]> (<["bottom" := px4]> (<["top" := px4]> ∅)).
Proof.
  intros Hfull. split_and!.
  - done.
  - intros sides. rewrite filter_snoc. unfold copy_side, set_member.
    cbn [String.eqb Ascii.eqb Bool.eqb].
    f_equal. apply full_get_other; [done|]. not_elem_of_literal.
  - intros sides. rewrite filter_snoc. unfold copy_side, set_member.
    cbn [String.eqb Ascii.eqb Bool.eqb].
    f_equal. apply full_get_other; [done|]. not_elem_of_literal.
  - intros sides side Hside. rewrite filter_snoc. unfold copy_side, set_member.
    unfold Sides in Hside.
    repeat (apply elem_of_cons in Hside as [->|Hside]); [done..|].
    by apply elem_of_nil in Hside.
  - by vm_compute.
Qed.

Lemma filter_entries_in_order_witness :
  FullSideMapping (box px4 px4 px4 px4)
  ∧ filterValuesBySides (box px4 px4 px4 px4) (Some ([] ++ ["bottom"]))
    = <["bottom" := px4]> ∅.
Proof.
  assert (FullSideMapping (box px4 px4 px4 px4)) as Hfull by (vm_compute; reflexivity).
  split; [exact Hfull|].
  destruct (filter_entries_in_order (box px4 px4 px4 px4) Hfull)
    as (_ & _ & _ & Hside & _).
  rewrite (Hside [] "bottom") by elem_of_literal.
  vm_compute. reflexivity.
Defined.

(** C1 fails as stated: filtering the uniform 4px mapping by [vertical]
    does not give exactly top and bottom; the key vertical is present. *)
Lemma filter_vertical_extra_key :
  filterValuesBySides (box px4 px4 px4 px4) (Some ["vertical"])
  ≠ <["bottom" := px4]> (<["top" := px4]> ∅).
Proof.
  intros H. apply (f_equal (fun m : obj => m !! "vertical")) in H.
  vm_compute in H. discriminate H.
Qed.

Lemma filter_lookup_entry (values : obj) (sides : list string)
  (side : string) :
  side ≠ "__proto__" -> side ∈ sides ->
  filterValuesBySides values (Some sides) !! side = Some (get values side).
Proof.
  intros Hp Hin. rewrite filter_lookup.
  replace (existsb (fun s => covers s side) sides) with true; [done|].
  symmetry. apply existsb_exists. exists side.
  split; [by apply list_elem_of_In|by apply covers_self].
Qed.





End Filter.

Section Gap.

Import Dimensions.

Lemma copy_axis_agree (e1 e2 : value) (acc : obj) (side : string) :
  opt_get e1 "top" = opt_get e2 "top" ->
  opt_get e1 "left" = opt_get e2 "left" ->
  copy_axis e1 acc side = copy_axis e2 acc side.
Proof. intros Ht Hl. unfold copy_axis. by rewrite Ht, Hl. Qed.

Lemma copy_axis_discrete (e : value) (acc : obj) (side : string) :
  side ∉ AXIAL_SIDES -> copy_axis e acc side = acc.
Proof.
  intros Hside. unfold copy_axis.
  destruct (String.eqb_spec side "horizontal") as [->|_].
  { exfalso. apply Hside. elem_of_literal. }
  destruct (String.eqb_spec side "vertical") as [->|_]; [|done].
  exfalso. apply Hside. elem_of_literal.
Qed.

Lemma copy_axis_keys (e : value) (acc : obj) (side k : string) :
  is_Some (copy_axis e acc side !! k) ->
  is_Some (acc !! k) ∨ k = "row" ∨ k = "column".
Proof.
  unfold copy_axis.
  destruct (String.eqb side "horizontal"), (String.eqb side "vertical");
    rewrite ?lookup_insert; repeat case_decide; subst; auto.
Qed.

Lemma foldl_copy_axis_keys (e : value) (sides : list string) (acc : obj)
  (k : string) :
  is_Some (foldl (copy_axis e) acc sides !! k) ->
  is_Some (acc !! k) ∨ k = "row" ∨ k = "column".
Proof.
  revert acc. induction sides as [|side sides IH]; intros acc; cbn [foldl].
  - auto.
  - intros H. apply IH in H as [H|H]; [|by right].
    by apply copy_axis_keys in H.
Qed.

Lemma filterGap_agree (e1 e2 : value) (sides : option (list string)) :
  opt_get e1 "top" = opt_get e2 "top" ->
  opt_get e1 "left" = opt_get e2 "left" ->
  filterGapValuesBySides e1 sides = filterGapValuesBySides e2 sides.
Proof.
  intros Ht Hl. destruct sides as [l|]; cbn [filterGapValuesBySides].
  - generalize (∅ : obj). induction l as [|side l IH]; intros acc; [done|].
    cbn [foldl]. by rewrite (copy_axis_agree e1 e2), IH.
  - by rewrite Ht, Hl.
Qed.

(** C7: a stored gap of row [r] and column [c] is split into top and
    bottom [r], right and left [c], and filtering that mapping with no
    subset gives back exactly row [r] and column [c]. *)
Theorem gap_round_trip (r c : value) :
  splitGapStyleValue (VObj (<["column" := c]> (<["row" := r]> ∅)))
  = VObj (box r c r c)
  ∧ filterGapValuesBySides (VObj (box r c r c)) None
    = <["column" := c]> (<["row" := r]> ∅).
Proof. split; reflexivity. Qed.

(** C8: two edited mappings that agree on top and left are filtered to
    the same gap, whatever the subset, present or absent; the entries of a
    subset that are not axis tokens can be dropped without changing the
    output, whose only keys are row and column.  With the subset
    [horizontal] a uniform 2px gap is filtered to the column alone. *)
Theorem filterGap_reads_top_left (e1 e2 : value)
  (sides : option (list string)) :
  opt_get e1 "top" = opt_get e2 "top" ->
  opt_get e1 "left" = opt_get e2 "left" ->
  filterGapValuesBySides e1 sides = filterGapValuesBySides e2 sides
  ∧ (∀ l, filterGapValuesBySides e1 (Some l)
          = filterGapValuesBySides e1 (Some (filter (.∈ AXIAL_SIDES) l)))
  ∧ (∀ k, is_Some (filterGapValuesBySides e1 sides !! k) ->
          k = "row" ∨ k = "column")
  ∧ filterGapValuesBySides (splitGapStyleValue (VStr "2px"))
      (Some ["horizontal"])
    = <["column" := VStr "2px"]> ∅.
Proof.
  intros Ht Hl. split_and!.
  - by apply filterGap_agree.
  - intros l. cbn [filterGapValuesBySides].
    generalize (∅ : obj). induction l as [|side l IH]; intros acc; [done|].
    rewrite filter_cons. cbn [foldl]. case_decide.
    + apply IH.
    + rewrite copy_axis_discrete by done. apply IH.
  - intros k. destruct sides as [l|]; cbn [filterGapValuesBySides].
    + intros H. apply foldl_copy_axis_keys in H as [H|H]; [|done].
      rewrite lookup_empty in H. by destruct H.
    + rewrite !lookup_insert. repeat case_decide; subst; auto.
      rewrite lookup_empty. by intros [].
  - reflexivity.
Qed.

Lemma filterGap_reads_top_left_witness :
  filterGapValuesBySides
    (VObj (box (VStr "10px") (VStr "5px") (VStr "10px") (VStr "5px")))
    (Some ["top"; "vertical"])
  = filterGapValuesBySides
      (VObj (box (VStr "10px") (VStr "7px") (VStr "9px") (VStr "5px")))
      (Some ["top"; "vertical"]).
Proof.
  refine (proj1 (filterGap_reads_top_left _ _ _ _ _)); reflexivity.
Defined.

End Gap.

Section Split.

Import Dimensions.

Lemma get_all_absent (k : string) : get all_absent k = VUndefined.
Proof.
  unfold get, all_absent, box. rewrite !lookup_insert.
  repeat case_decide; done.
Qed.

(** C3, as the code has it: only a non-empty string is widened to the four
    side keys; every other input is returned as it is.  An absent input
    yields absent, from which every edge reads absent; a per-side mapping
    is passed through with the keys it has, and a key reads as the
    mapping's own entry, absent when the key is missing. *)
Theorem splitStyleValue_cases (value : value) :
  splitStyleValue value
  = match value with
    | VStr s => if String.eqb s "" then value
                else VObj (box value value value value)
    | _ => value
    end
  ∧ splitStyleValue VUndefined = VUndefined
  ∧ (∀ k, opt_get (splitStyleValue VUndefined) k = VUndefined)
  ∧ (∀ o : obj, splitStyleValue (VObj o) = VObj o)
  ∧ (∀ (o : obj) k,
       opt_get (splitStyleValue (VObj o)) k = default VUndefined (o !! k)).
Proof.
  split_and!; try done.
  destruct value as [| |b|n|s|o]; try done;
    unfold splitStyleValue; cbn [ToBoolean typeof].
  - by rewrite andb_false_r.
  - by rewrite andb_false_r.
  - rewrite andb_true_r. by destruct (String.eqb s "").
Qed.

(** C3 fails as stated: an absent input is not turned into a mapping, and
    a mapping that has only the key top comes back without the key
    right. *)
Lemma split_keeps_partial :
  (∀ o : obj, splitStyleValue VUndefined ≠ VObj o)
  ∧ (∃ o : obj, splitStyleValue (VObj (<["top" := px4]> ∅)) = VObj o
                ∧ o !! "right" = None).
Proof.
  split; [done|]. exists (<["top" := px4]> ∅). by split.
Qed.

End Split.

Section HasValue.

Import Dimensions.

Lemma has_keys_obj (o : obj) :
  has_keys (VObj o) = Normal (VNum (Num (Z.of_nat (size o)))).
Proof.
  unfold has_keys, Object_keys, own_entries, bind, length_value.
  cbn [ToBoolean]. by rewrite length_fmap, length_map_to_list.
Qed.

Lemma reports_has_keys_obj (o : obj) :
  reports (has_keys (VObj o)) = Some (negb (Nat.eqb (size o) 0)).
Proof.
  rewrite has_keys_obj. cbn [reports ToBoolean]. do 2 f_equal.
  destruct (size o); [done|]. cbn [Nat.eqb]. apply Z.eqb_neq. lia.
Qed.

Lemma reports_has_keys_split (v : value) :
  ∃ b, reports (has_keys (splitStyleValue v)) = Some b
       ∧ (b = true ↔ stored_has_key v).
Proof.
  destruct v as [| |b|n|s|o].
  - exists false. split; [done|]. split; [done|]. by intros [(? & ? & ?)|(? & ? & ?)].
  - exists false. split; [done|]. split; [done|]. by intros [(? & ? & ?)|(? & ? & ?)].
  - exists false. split; [by destruct b|].
    split; [done|]. by intros [(? & ? & ?)|(? & ? & ?)].
  - exists false. split.
    + destruct n as [|z]; [done|].
      unfold splitStyleValue, has_keys. cbn [ToBoolean typeof String.eqb].
      rewrite andb_false_r. cbn [ToBoolean]. by destruct (z =? 0)%Z.
    + split; [done|]. by intros [(? & ? & ?)|(? & ? & ?)].
  - destruct (String.eqb_spec s "") as [->|Hs].
    + exists false. split; [done|]. split; [done|].
      intros [(? & [= <-] & ?)|(? & ? & ?)]; done.
    + exists true. split.
      * unfold splitStyleValue. cbn [ToBoolean typeof].
        apply String.eqb_neq in Hs. rewrite Hs. cbn [negb andb String.eqb Ascii.eqb Bool.eqb].
        by rewrite reports_has_keys_obj.
      * split; [|done]. intros _. left. by exists s.
  - exists (negb (Nat.eqb (size o) 0)). split.
    + apply reports_has_keys_obj.
    + rewrite negb_true_iff, Nat.eqb_neq, map_size_non_empty_iff. split.
      * intros Ho. right. by exists o.
      * by intros [(? & ? & ?)|(? & [= <-] & ?)].
Qed.

(** C2, as the code has it, for padding and margin: [hasValue()] counts
    the keys of the split value, whatever is stored under them.  It
    reports false exactly when the stored value is neither a non-empty
    string nor an object with at least one key, and true otherwise; when
    nothing is stored it returns [false]. *)
Theorem has_value_counts_keys (name : string) (st : store) :
  (reports (hasPaddingValue name st) = Some false
   ↔ ¬ stored_has_key (getStyle st name "padding"))
  ∧ (reports (hasPaddingValue name st) = Some true
     ↔ stored_has_key (getStyle st name "padding"))
  ∧ (reports (hasMarginValue name st) = Some false
     ↔ ¬ stored_has_key (getStyle st name "margin"))
  ∧ (reports (hasMarginValue name st) = Some true
     ↔ stored_has_key (getStyle st name "margin"))
  ∧ (getStyle st name "padding" = VUndefined ->
     hasPaddingValue name st = Normal (VBool false))
  ∧ (getStyle st name "margin" = VUndefined ->
     hasMarginValue name st = Normal (VBool false)).
Proof.
  unfold hasPaddingValue, hasMarginValue, paddingValues, marginValues.
  destruct (reports_has_keys_split (getStyle st name "padding"))
    as (bp & -> & Hp).
  destruct (reports_has_keys_split (getStyle st name "margin"))
    as (bm & -> & Hm).
  split_and!.
  - rewrite <- Hp. destruct bp; split; intros; try done; exfalso; auto.
  - rewrite <- Hp. split; [by intros [= ->]|by intros ->].
  - rewrite <- Hm. destruct bm; split; intros; try done; exfalso; auto.
  - rewrite <- Hm. split; [by intros [= ->]|by intros ->].
  - by intros ->.
  - by intros ->.
Qed.

Lemma has_value_counts_keys_witness :
  hasPaddingValue "core/group" ∅ = Normal (VBool false)
  ∧ hasMarginValue "core/group" ∅ = Normal (VBool false).
Proof.
  destruct (has_value_counts_keys "core/group" ∅) as (_ & _ & _ & _ & Hp & Hm).
  split; [apply Hp|apply Hm]; reflexivity.
Defined.

(** The split gap always has the four side keys, so [hasGapValue]
    counts four whatever is stored. *)
Lemma has_gap_value_four (name : string) (st : store) :
  hasGapValue name st = Normal (VNum (Num 4)).
Proof.
  unfold hasGapValue, gapValues, splitGapStyleValue.
  by destruct (_ && _); rewrite has_keys_obj.
Qed.

(** C2 fails as stated: a stored padding whose only key holds an absent
    value has every edge absent and still reports a value; and with
    nothing stored for the gap, every edge of the split gap is absent and
    [hasGapValue] still reports a value. *)
Lemma has_value_with_absent_edges :
  let st : store := <[("core/group", "padding") := VObj (<["top" := VUndefined]> ∅)]> ∅ in
  (∀ side, opt_get (paddingValues "core/group" st) side = VUndefined)
  ∧ reports (hasPaddingValue "core/group" st) = Some true
  ∧ getStyle ∅ "core/group" "--wp--style--block-gap" = VUndefined
  ∧ gapValues "core/group" ∅ = VObj all_absent
  ∧ reports (hasGapValue "core/group" ∅) = Some true.
Proof.
  cbn zeta. split_and!; try reflexivity.
  intros side. change (paddingValues "core/group" _) with (VObj (<["top" := VUndefined]> ∅)).
  unfold opt_get, get. rewrite lookup_insert. by case_decide.
Qed.

End HasValue.

Section Reset.

Import Dimensions.

Lemma filter_empty_all_absent (sides : list string) :
  filterValuesBySides ∅ (Some sides)
  = filterValuesBySides all_absent (Some sides).
Proof.
  apply map_eq. intros k. rewrite !filter_lookup, get_all_absent.
  unfold get. by rewrite lookup_empty.
Qed.

Lemma getStyle_run_one (st : store) (name path : string) (v : value) :
  getStyle (run [Call name path v] st) name path = v.
Proof. unfold getStyle, run, perform. cbn. by rewrite lookup_insert_eq. Qed.

Lemma reports_after_empty_write (st : store) (name path : string) :
  reports (has_keys (splitStyleValue
                       (getStyle (run [Call name path (VObj ∅)] st) name path)))
  = Some false.
Proof. by rewrite getStyle_run_one. Qed.

(** C4, as the code has it: [reset()] writes the family's filter applied
    with the current subset to the empty mapping.  For the gap, and for
    padding and margin when a subset is present, that is the filter
    applied to the all-absent full mapping; with no subset, padding and
    margin write the empty mapping.  For padding and margin, when the
    subset is absent or has no entries, a read of the store after the
    reset makes [hasValue()] report false. *)
Theorem reset_writes_filtered_empty
  (useCustomSides : string -> string -> option (list string))
  (name : string) (st : store) :
  (∀ sides, paddingSides useCustomSides name = Some sides ->
     resetPaddingValue useCustomSides name
     = [Call name "padding"
          (VObj (filterValuesBySides all_absent (Some sides)))])
  ∧ (paddingSides useCustomSides name = None ->
     resetPaddingValue useCustomSides name = [Call name "padding" (VObj ∅)])
  ∧ (∀ sides, marginSides useCustomSides name = Some sides ->
     resetMarginValue useCustomSides name
     = [Call name "margin"
          (VObj (filterValuesBySides all_absent (Some sides)))])
  ∧ (marginSides useCustomSides name = None ->
     resetMarginValue useCustomSides name = [Call name "margin" (VObj ∅)])
  ∧ resetGapValue useCustomSides name
    = [Call name "--wp--style--block-gap"
         (VObj (filterGapValuesBySides (VObj all_absent)
                  (gapSides useCustomSides name)))]
  ∧ (paddingSides useCustomSides name = None
     ∨ paddingSides useCustomSides name = Some [] ->
     reports (hasPaddingValue name
                (run (resetPaddingValue useCustomSides name) st))
     = Some false)
  ∧ (marginSides useCustomSides name = None
     ∨ marginSides useCustomSides name = Some [] ->
     reports (hasMarginValue name
                (run (resetMarginValue useCustomSides name) st))
     = Some false).
Proof.
  unfold resetPaddingValue, setPaddingValues, resetMarginValue,
    setMarginValues, resetGapValue, setGapValues, hasPaddingValue,
    hasMarginValue, paddingValues, marginValues.
  split_and!.
  - intros sides ->. by rewrite filter_empty_all_absent.
  - by intros ->.
  - intros sides ->. by rewrite filter_empty_all_absent.
  - by intros ->.
  - by rewrite (filterGap_agree (VObj ∅) (VObj all_absent)).
  - intros [-> | ->]; apply reports_after_empty_write.
  - intros [-> | ->]; apply reports_after_empty_write.
Qed.

Lemma reset_writes_filtered_empty_witness :
  resetPaddingValue (fun _ _ => None) "core/group"
  = [Call "core/group" "padding" (VObj ∅)]
  ∧ reports (hasPaddingValue "core/group"
               (run (resetPaddingValue (fun _ _ => None) "core/group") ∅))
    = Some false.
Proof.
  destruct (reset_writes_filtered_empty (fun _ _ => None) "core/group" ∅)
    as (_ & Hw & _ & _ & _ & Hp & _).
  split; [apply Hw; reflexivity|apply Hp; left; reflexivity].
Defined.

(** C4 fails as stated: with no subset, the padding reset does not write
    the filter of the all-absent full mapping, which has four keys; and
    after the gap reset [hasGapValue] still reports a value. *)
Lemma reset_not_all_absent :
  let sides : string -> string -> option (list string) := fun _ _ => None in
  resetPaddingValue sides "core/group"
  ≠ [Call "core/group" "padding"
       (VObj (filterValuesBySides all_absent (paddingSides sides "core/group")))]
  ∧ reports (hasGapValue "core/group"
               (run (resetGapValue sides "core/group") ∅))
    = Some true.
Proof.
  cbn zeta. split.
  - intros H.
    apply (f_equal (fun cs => match cs with
                              | [Call _ _ (VObj m)] => m !! "top"
                              | _ => None
                              end)) in H.
    vm_compute in H. discriminate H.
  - by rewrite has_gap_value_four.
Qed.

End Reset.

Section BorderProperties.

Import Border.

Lemma or_undefined_truthy (v : value) :
  or_undefined v ≠ VUndefined ↔ ToBoolean v = true.
Proof.
  unfold or_undefined. destruct (ToBoolean v) eqn:E; [|done].
  split; [done|]. intros _ ->. discriminate E.
Qed.

Lemma or_undefined_falsy (v : value) :
  ToBoolean v = false -> or_undefined v = VUndefined.
Proof. unfold or_undefined. by intros ->. Qed.

Lemma or_undefined_sound (v : value) :
  or_undefined v = VUndefined ∨ ToBoolean (or_undefined v) = true.
Proof. unfold or_undefined. destruct (ToBoolean v) eqn:E; auto. Qed.

(** C6, as the code has it: the handler tests the truth value of the
    edit, not its presence.  A truthy width or colour edited while the
    border style is falsy makes the handler set the style to solid first
    and then write the width or colour.  Any falsy edit, the absent one
    and also the empty string, zero or [null], is the single call that
    writes an absent width or colour: no style is set, and the border
    style read from the store afterwards is the one read before. *)
Theorem border_write_sets_solid (name : string) (st : store) (value : value) :
  (ToBoolean value = true ->
   ToBoolean (borderStyle name st) = false ->
   widthOnChange name st value
   = [Call name "border.style" (VStr "solid"); Call name "border.width" value]
   ∧ colorOnChange name st value
     = [Call name "border.style" (VStr "solid");
        Call name "border.color" value])
  ∧ (ToBoolean value = false ->
     widthOnChange name st value = [Call name "border.width" VUndefined]
     ∧ colorOnChange name st value = [Call name "border.color" VUndefined]
     ∧ getStyle (run (widthOnChange name st value) st) name "border.style"
       = getStyle st name "border.style"
     ∧ getStyle (run (colorOnChange name st value) st) name "border.style"
       = getStyle st name "border.style").
Proof.
  unfold widthOnChange, colorOnChange, handleOnChangeWithStyle, or_undefined.
  split.
  - intros Hv Hs. by rewrite Hv, Hs.
  - intros Hv. rewrite Hv. cbn [andb app].
    split_and!; try done;
      unfold getStyle, run, perform; cbn; by rewrite lookup_insert_ne.
Qed.

Lemma border_write_sets_solid_witness :
  widthOnChange "core/group" ∅ (VStr "2px")
  = [Call "core/group" "border.style" (VStr "solid");
     Call "core/group" "border.width" (VStr "2px")]
  ∧ widthOnChange "core/group"
      (<[("core/group", "border.style") := VStr "dashed"]> ∅) (VNum (Num 0))
    = [Call "core/group" "border.width" VUndefined].
Proof.
  split.
  - refine (proj1 (proj1 (border_write_sets_solid "core/group" ∅ (VStr "2px"))
                     _ _)); reflexivity.
  - refine (proj1 (proj2 (border_write_sets_solid "core/group"
                            (<[("core/group", "border.style") := VStr "dashed"]> ∅)
                            (VNum (Num 0))) _)).
    reflexivity.
Defined.

(** C6 fails as stated: the empty string is not an absent width, no
    border style is set, and the handler sets no style; its only call
    writes an absent width. *)
Lemma empty_width_sets_no_style :
  VStr "" ≠ VUndefined
  ∧ ToBoolean (borderStyle "core/group" ∅) = false
  ∧ widthOnChange "core/group" ∅ (VStr "")
    = [Call "core/group" "border.width" VUndefined]
  ∧ colorOnChange "core/group" ∅ (VStr "")
    = [Call "core/group" "border.color" VUndefined].
Proof. by split_and!. Qed.

Lemma existsb_entries (es : list (string * value)) :
  existsb ToBoolean (map (fun e => array2 (VStr e.1) e.2) es)
  = negb (Nat.eqb (length es) 0).
Proof. by destruct es. Qed.

(** C9: when the user radius is an object, [hasBorderRadius] returns true
    exactly when the object has at least one key, whatever the values of
    its corners; an object whose corners are all absent gives true. *)
Theorem radius_counts_keys (styles o : obj) :
  hasBorderRadius (VObj (<["radius" := VObj o]> styles))
  = Normal (VBool (negb (Nat.eqb (size o) 0)))
  ∧ hasBorderRadius
      (VObj (<["radius" := VObj (<["topRight" := VUndefined]>
                                   (<["topLeft" := VUndefined]> ∅))]> styles))
    = Normal (VBool true).
Proof.
  assert (∀ o' : obj,
            hasBorderRadius (VObj (<["radius" := VObj o']> styles))
            = Normal (VBool (negb (Nat.eqb (size o') 0)))) as H.
  { intros o'. unfold hasBorderRadius, opt_get, get.
    rewrite lookup_insert_eq. cbn.
    by rewrite existsb_entries, length_map_to_list. }
  split; [apply H|]. by rewrite H.
Qed.

(** C10: a falsy value edited for the border width, style or colour is
    written as [undefined]; and whatever is edited, each call the three
    handlers make hands the store [undefined] or a truthy value. *)
Theorem falsy_edit_writes_undefined (name : string) (st : store)
  (value : value) :
  ToBoolean value = false ->
  widthOnChange name st value = [Call name "border.width" VUndefined]
  ∧ styleOnChange name value = [Call name "border.style" VUndefined]
  ∧ colorOnChange name st value = [Call name "border.color" VUndefined]
  ∧ (∀ v c,
       c ∈ widthOnChange name st v ++ styleOnChange name v
           ++ colorOnChange name st v ->
       call_value c = VUndefined ∨ ToBoolean (call_value c) = true).
Proof.
  intros Hv.
  unfold widthOnChange, colorOnChange, styleOnChange, handleOnChange,
    handleOnChangeWithStyle, setBorderWidth, setBorderColor, setBorderStyle.
  rewrite (or_undefined_falsy value Hv), Hv. split_and!; [done..|].
  intros v c Hc.
  destruct (ToBoolean v && negb (ToBoolean (borderStyle name st)));
    cbn [app] in Hc;
    repeat (apply elem_of_cons in Hc as [->|Hc]);
    try (by apply elem_of_nil in Hc); cbn [call_value];
    first [by right | apply or_undefined_sound].
Qed.

Lemma falsy_edit_writes_undefined_witness :
  widthOnChange "core/group" ∅ (VStr "")
  = [Call "core/group" "border.width" VUndefined]
  ∧ styleOnChange "core/group" (VNum (Num 0))
    = [Call "core/group" "border.style" VUndefined].
Proof.
  split.
  - refine (proj1 (falsy_edit_writes_undefined "core/group" ∅ (VStr "") _)).
    reflexivity.
  - pose proof (falsy_edit_writes_undefined "core/group" ∅ (VNum (Num 0)))
      as H.
    apply H. reflexivity.
Defined.

End BorderProperties.

(** * Further properties of the two panels *)

Section FilterMore.

Import Dimensions.

Lemma covers_spec (k : string) (l : list string) :
  existsb (fun side => covers side k) l = true
  ↔ (k ∈ l ∧ k ≠ "__proto__")
    ∨ ("vertical" ∈ l ∧ (k = "top" ∨ k = "bottom"))
    ∨ ("horizontal" ∈ l ∧ (k = "left" ∨ k = "right")).
Proof.
  rewrite existsb_exists. split.
  - intros (side & Hin & Hc). apply list_elem_of_In in Hin.
    unfold covers in Hc.
    repeat (apply orb_true_iff in Hc as [Hc|Hc]).
    + apply andb_true_iff in Hc as [Hs Hp]. apply String.eqb_eq in Hs as ->.
      apply negb_true_iff, String.eqb_neq in Hp. by left.
    + apply andb_true_iff in Hc as [Hs Hk]. apply String.eqb_eq in Hs as ->.
      right; left. split; [done|].
      apply orb_true_iff in Hk as [Hk|Hk]; apply String.eqb_eq in Hk; auto.
    + apply andb_true_iff in Hc as [Hs Hk]. apply String.eqb_eq in Hs as ->.
      right; right. split; [done|].
      apply orb_true_iff in Hk as [Hk|Hk]; apply String.eqb_eq in Hk; auto.
  - intros [[H Hp]|[[H Hk]|[H Hk]]].
    + exists k. split; [by apply list_elem_of_In|by apply covers_self].
    + exists "vertical". split; [by apply list_elem_of_In|].
      by destruct Hk as [-> | ->].
    + exists "horizontal". split; [by apply list_elem_of_In|].
      by destruct Hk as [-> | ->].
Qed.

Lemma covers_same_entries (k : string) (l1 l2 : list string) :
  list_to_set (C := gset string) l1 = list_to_set l2 ->
  existsb (fun side => covers side k) l1
  = existsb (fun side => covers side k) l2.
Proof.
  intros Hset.
  assert (∀ s, s ∈ l1 ↔ s ∈ l2) as Hmem.
  { intros s. rewrite <- !(elem_of_list_to_set (C := gset string)).
    by rewrite Hset. }
  apply eq_true_iff_eq. rewrite !covers_spec, !Hmem. done.
Qed.

Lemma filter_is_Some (values : obj) (l : list string) (k : string) :
  is_Some (filterValuesBySides values (Some l) !! k)
  ↔ (k ∈ l ∧ k ≠ "__proto__")
    ∨ ("vertical" ∈ l ∧ (k = "top" ∨ k = "bottom"))
    ∨ ("horizontal" ∈ l ∧ (k = "left" ∨ k = "right")).
Proof.
  rewrite filter_lookup, <- covers_spec.
  destruct (existsb _ l); split; eauto; [by intros []|done].
Qed.

Lemma filter_size (values : obj) (l : list string) :
  negb (Nat.eqb (size (filterValuesBySides values (Some l))) 0)
  = existsb (fun side => negb (String.eqb side "__proto__")) l.
Proof.
  destruct (existsb _ l) eqn:E.
  - apply existsb_exists in E as (side & Hin & Hp).
    apply list_elem_of_In in Hin.
    apply negb_true_iff, String.eqb_neq in Hp.
    apply negb_true_iff, Nat.eqb_neq, map_size_non_empty_iff.
    intros Hempty.
    pose proof (filter_lookup_entry values l side Hp Hin) as H.
    by rewrite Hempty in H.
  - apply negb_false_iff, Nat.eqb_eq, map_size_empty_iff, map_eq.
    intros k. rewrite lookup_empty.
    apply eq_None_not_Some. rewrite filter_is_Some.
    assert (∀ side, side ∈ l -> side = "__proto__") as Hall.
    { intros side Hin. apply list_elem_of_In in Hin.
      destruct (String.eqb_spec side "__proto__") as [|Hne]; [done|].
      exfalso. apply not_true_iff_false in E. apply E.
      apply existsb_exists. exists side. split; [done|].
      by apply negb_true_iff, String.eqb_neq. }
    intros [[Hin Hp]|[[Hin _]|[Hin _]]].
    + by apply Hp, Hall.
    + by apply Hall in Hin.
    + by apply Hall in Hin.
Qed.

(** X1: with a subset present, the output has a key exactly when the key
    is an entry of the subset other than [__proto__], or top or bottom
    with [vertical] in the subset, or left or right with [horizontal] in
    it.  Under a key that does not name a method of [Object.prototype],
    the value is the one the input has under the same key. *)
Theorem filter_lookup_iff (values : obj) (l : list string) (k : string) :
  (is_Some (filterValuesBySides values (Some l) !! k)
   ↔ (k ∈ l ∧ k ≠ "__proto__")
     ∨ ("vertical" ∈ l ∧ (k = "top" ∨ k = "bottom"))
     ∨ ("horizontal" ∈ l ∧ (k = "left" ∨ k = "right")))
  ∧ (k ∉ Object_prototype_methods ->
     ∀ x, filterValuesBySides values (Some l) !! k = Some x ->
          x = get values k).
Proof.
  split; [apply filter_is_Some|].
  intros _ x. rewrite filter_lookup.
  destruct (existsb _ l); [by intros [= <-]|done].
Qed.

Lemma filter_lookup_iff_witness :
  filterValuesBySides (box px4 (VStr "8px") px4 px4)
    (Some ["horizontal"; "__proto__"]) !! "right"
  = Some (VStr "8px").
Proof.
  destruct (filter_lookup_iff (box px4 (VStr "8px") px4 px4)
              ["horizontal"; "__proto__"] "right") as [Hk Hv].
  destruct (proj2 Hk) as [x Hx].
  - right; right. split; [elem_of_literal|by right].
  - rewrite Hx. f_equal. apply Hv; [not_elem_of_literal|exact Hx].
Defined.

(** X2: filtering is idempotent, for an absent and for a present subset;
    so an edit that is already filtered writes the same call as the
    unfiltered one. *)
Theorem filter_idempotent (values : obj) (sides : option (list string)) :
  filterValuesBySides (filterValuesBySides values sides) sides
  = filterValuesBySides values sides
  ∧ (∀ useCustomSides name,
       setPaddingValues useCustomSides name
         (filterValuesBySides values (paddingSides useCustomSides name))
       = setPaddingValues useCustomSides name values).
Proof.
  assert (∀ s, filterValuesBySides (filterValuesBySides values s) s
               = filterValuesBySides values s) as H.
  { intros [l|]; [|done]. apply map_eq. intros k.
    rewrite !filter_lookup.
    destruct (existsb _ l) eqn:E; [|done].
    unfold get at 1. by rewrite filter_lookup, E. }
  split; [apply H|].
  intros useCustomSides name. unfold setPaddingValues. by rewrite H.
Qed.

(** X3: the output depends on the set of entries of the subset only, not
    on their order or on repetitions. *)
Theorem filter_same_entries (values : obj) (l1 l2 : list string) :
  list_to_set (C := gset string) l1 = list_to_set l2 ->
  filterValuesBySides values (Some l1) = filterValuesBySides values (Some l2).
Proof.
  intros Hset. apply map_eq. intros k.
  by rewrite !filter_lookup, (covers_same_entries k l1 l2).
Qed.

Lemma filter_same_entries_witness :
  filterValuesBySides (box px4 (VStr "8px") px4 px4)
    (Some ["left"; "vertical"; "left"])
  = filterValuesBySides (box px4 (VStr "8px") px4 px4)
      (Some ["vertical"; "left"]).
Proof. apply filter_same_entries. vm_compute. reflexivity. Defined.

(** X4: after an edit of the padding or of the margin, a read of the
    store makes [hasValue()] report whether the mapping written has a key:
    with no subset, whether the edited mapping has one; with a subset,
    whether the subset has an entry other than [__proto__], whatever the
    edited values are. *)
Theorem has_value_after_edit
  (useCustomSides : string -> string -> option (list string))
  (name : string) (st : store) (values : obj) :
  reports (hasPaddingValue name
             (run (setPaddingValues useCustomSides name values) st))
  = Some (match paddingSides useCustomSides name with
          | None => negb (Nat.eqb (size values) 0)
          | Some l => existsb (fun side => negb (String.eqb side "__proto__")) l
          end)
  ∧ reports (hasMarginValue name
               (run (setMarginValues useCustomSides name values) st))
    = Some (match marginSides useCustomSides name with
            | None => negb (Nat.eqb (size values) 0)
            | Some l =>
                existsb (fun side => negb (String.eqb side "__proto__")) l
            end).
Proof.
  unfold hasPaddingValue, hasMarginValue, paddingValues, marginValues,
    setPaddingValues, setMarginValues.
  rewrite !getStyle_run_one.
  split.
  - change (splitStyleValue (VObj ?o)) with (VObj o).
    rewrite reports_has_keys_obj.
    destruct (paddingSides useCustomSides name) as [l|]; [|done].
    by rewrite filter_size.
  - change (splitStyleValue (VObj ?o)) with (VObj o).
    rewrite reports_has_keys_obj.
    destruct (marginSides useCustomSides name) as [l|]; [|done].
    by rewrite filter_size.
Qed.

End FilterMore.

Section GapMore.

Import Dimensions.

Lemma includes_snoc (l : list string) (side x : string) :
  includes (l ++ [side]) x = includes l x || String.eqb side x.
Proof.
  unfold includes. rewrite existsb_app. cbn [existsb].
  by rewrite orb_false_r, (String.eqb_sym x side).
Qed.

Lemma includes_elem_of (l : list string) (x : string) :
  includes l x = true ↔ x ∈ l.
Proof.
  unfold includes. rewrite existsb_exists. split.
  - intros (y & Hin & Heq). apply String.eqb_eq in Heq as ->.
    by apply list_elem_of_In.
  - intros Hin. exists x. split; [by apply list_elem_of_In|].
    apply String.eqb_refl.
Qed.

Lemma copy_axis_lookup (e : value) (acc : obj) (side k : string) :
  copy_axis e acc side !! k
  = if String.eqb side "vertical" && String.eqb k "row"
    then Some (opt_get e "top")
    else if String.eqb side "horizontal" && String.eqb k "column"
         then Some (opt_get e "left")
         else acc !! k.
Proof.
  unfold copy_axis.
  destruct (String.eqb_spec side "horizontal") as [Hh|Hh];
    destruct (String.eqb_spec side "vertical") as [Hv|Hv];
    try (exfalso; congruence);
    rewrite ?lookup_insert;
    destruct (String.eqb_spec k "row"), (String.eqb_spec k "column");
    repeat case_decide; cbn [andb]; congruence.
Qed.

Lemma filterGap_lookup (e : value) (l : list string) (k : string) :
  filterGapValuesBySides e (Some l) !! k
  = if includes l "vertical" && String.eqb k "row"
    then Some (opt_get e "top")
    else if includes l "horizontal" && String.eqb k "column"
         then Some (opt_get e "left")
         else None.
Proof.
  induction l as [|side l IH] using rev_ind; [done|].
  unfold filterGapValuesBySides in *. rewrite foldl_app. cbn [foldl].
  rewrite copy_axis_lookup, IH, !includes_snoc.
  destruct (String.eqb_spec k "row"), (String.eqb_spec k "column");
    try (exfalso; congruence);
    destruct (includes l "vertical"), (includes l "horizontal"),
      (String.eqb side "vertical"), (String.eqb side "horizontal"); done.
Qed.

(** X5: with a subset present, the gap written has the row, read from
    top, exactly when the subset includes [vertical], and the column, read
    from left, exactly when it includes [horizontal]; it has nothing else.
    A subset with both tokens filters like an absent one. *)
Theorem filterGap_closed_form (e : value) (l : list string) :
  filterGapValuesBySides e (Some l)
  = match includes l "vertical", includes l "horizontal" with
    | true, true =>
        <["column" := opt_get e "left"]> (<["row" := opt_get e "top"]> ∅)
    | true, false => <["row" := opt_get e "top"]> ∅
    | false, true => <["column" := opt_get e "left"]> ∅
    | false, false => ∅
    end
  ∧ ("vertical" ∈ l -> "horizontal" ∈ l ->
     filterGapValuesBySides e (Some l) = filterGapValuesBySides e None).
Proof.
  assert (filterGapValuesBySides e (Some l)
          = match includes l "vertical", includes l "horizontal" with
            | true, true =>
                <["column" := opt_get e "left"]>
                  (<["row" := opt_get e "top"]> ∅)
            | true, false => <["row" := opt_get e "top"]> ∅
            | false, true => <["column" := opt_get e "left"]> ∅
            | false, false => ∅
            end) as H.
  { apply map_eq. intros k. rewrite filterGap_lookup.
    destruct (includes l "vertical"), (includes l "horizontal");
      rewrite ?lookup_insert, ?lookup_empty;
      destruct (String.eqb_spec k "row"), (String.eqb_spec k "column");
      repeat case_decide; cbn [andb]; congruence. }
  split; [exact H|].
  intros Hv Hh. apply includes_elem_of in Hv, Hh. by rewrite H, Hv, Hh.
Qed.

Lemma filterGap_closed_form_witness :
  filterGapValuesBySides (VObj (box px4 (VStr "8px") px4 (VStr "8px")))
    (Some ["horizontal"; "top"; "vertical"])
  = filterGapValuesBySides (VObj (box px4 (VStr "8px") px4 (VStr "8px")))
      None.
Proof.
  refine (proj2 (filterGap_closed_form _ _) _ _); elem_of_literal.
Defined.

Lemma box_full (t r b l : value) : FullSideMapping (box t r b l).
Proof.
  unfold FullSideMapping, box. rewrite !dom_insert_L. set_solver.
Qed.

Lemma splitGap_shape (v : value) :
  ∃ t l, splitGapStyleValue v = VObj (box t l t l).
Proof.
  unfold splitGapStyleValue. destruct (_ && _); eauto.
Qed.

(** X6: the box-model splitter is idempotent on every input. *)
Theorem split_idempotent (v : value) :
  splitStyleValue (splitStyleValue v) = splitStyleValue v.
Proof.
  destruct (ToBoolean v && String.eqb (typeof v) "string") eqn:E;
    unfold splitStyleValue; rewrite E; [done|by rewrite E].
Qed.

(** X7: whatever is stored, the gap splitter returns a mapping whose keys
    are exactly the four sides, with bottom equal to top and right equal
    to left.  It is not idempotent: applied to its own result, which has
    neither row nor column, it gives the all-absent mapping. *)
Theorem splitGap_full_symmetric (v : value) :
  ∃ o : obj,
    splitGapStyleValue v = VObj o
    ∧ FullSideMapping o
    ∧ get o "bottom" = get o "top"
    ∧ get o "right" = get o "left"
    ∧ splitGapStyleValue (VObj o) = VObj all_absent.
Proof.
  destruct (splitGap_shape v) as (t & l & ->).
  exists (box t l t l). split_and!; try done; apply box_full.
Qed.

(** X8: filtering an edited mapping with no subset and splitting what was
    written shows top on top and bottom and left on left and right; on the
    split of a stored gap this is the split itself, and so is the view
    read from the store after writing it back. *)
Theorem gap_filter_split (e : value) :
  splitGapStyleValue (VObj (filterGapValuesBySides e None))
  = VObj (box (opt_get e "top") (opt_get e "left")
              (opt_get e "top") (opt_get e "left"))
  ∧ (∀ v, splitGapStyleValue
            (VObj (filterGapValuesBySides (splitGapStyleValue v) None))
          = splitGapStyleValue v)
  ∧ (∀ useCustomSides name st,
       gapSides useCustomSides name = None ->
       gapValues name
         (run (setGapValues useCustomSides name (gapValues name st)) st)
       = gapValues name st).
Proof.
  assert (∀ v, splitGapStyleValue
                 (VObj (filterGapValuesBySides (splitGapStyleValue v) None))
               = splitGapStyleValue v) as H.
  { intros v. by destruct (splitGap_shape v) as (t & l & ->). }
  split_and!; [done|exact H|].
  intros useCustomSides name st Hnone.
  unfold gapValues at 1, setGapValues. rewrite getStyle_run_one, Hnone.
  apply H.
Qed.

Lemma gap_filter_split_witness :
  gapValues "core/group"
    (run (setGapValues (fun _ _ => None) "core/group"
            (gapValues "core/group"
               (<[("core/group", "--wp--style--block-gap") := VStr "2px"]> ∅)))
         (<[("core/group", "--wp--style--block-gap") := VStr "2px"]> ∅))
  = VObj (box (VStr "2px") (VStr "2px") (VStr "2px") (VStr "2px")).
Proof.
  destruct (gap_filter_split VUndefined) as (_ & _ & H).
  rewrite H; reflexivity.
Defined.

End GapMore.

Section PanelMore.

Import Dimensions.

Lemma some_axial_spec (l : list string) :
  existsb (fun side => includes AXIAL_SIDES side) l = true
  ↔ "horizontal" ∈ l ∨ "vertical" ∈ l.
Proof.
  rewrite existsb_exists. split.
  - intros (side & Hin & Hs). apply list_elem_of_In in Hin.
    apply includes_elem_of in Hs. unfold AXIAL_SIDES in Hs.
    repeat (apply elem_of_cons in Hs as [->|Hs]); auto.
    by apply elem_of_nil in Hs.
  - intros [H|H]; [exists "horizontal"|exists "vertical"];
      (split; [by apply list_elem_of_In|done]).
Qed.

Lemma not_axial_includes (l : list string) :
  existsb (fun side => includes AXIAL_SIDES side) l = false ->
  includes l "vertical" = false ∧ includes l "horizontal" = false.
Proof.
  intros H. split; apply not_true_is_false; intros Hin;
    apply includes_elem_of in Hin;
    apply not_true_iff_false in H; apply H, some_axial_spec; auto.
Qed.

(** X9: the axial flag of a family is true exactly when its subset is
    present and has [horizontal] or [vertical] among its entries.  When
    the subset is present and the flag is false, a gap edit writes the
    empty mapping, whatever was edited, and the keys of a filtered padding
    or margin are exactly the entries of the subset other than
    [__proto__]. *)
Theorem axial_flag
  (useCustomSides : string -> string -> option (list string))
  (name : string) :
  (isAxialPadding useCustomSides name = Some true
   ↔ ∃ l, paddingSides useCustomSides name = Some l
          ∧ ("horizontal" ∈ l ∨ "vertical" ∈ l))
  ∧ (∀ l, gapSides useCustomSides name = Some l ->
       isAxialGap useCustomSides name = Some false ->
       ∀ e, setGapValues useCustomSides name e
            = [Call name "--wp--style--block-gap" (VObj ∅)])
  ∧ (∀ l, paddingSides useCustomSides name = Some l ->
       isAxialPadding useCustomSides name = Some false ->
       ∀ values k,
         is_Some (filterValuesBySides values (Some l) !! k)
         ↔ k ∈ l ∧ k ≠ "__proto__").
Proof.
  unfold isAxialPadding, isAxialGap, setGapValues. split_and!.
  - destruct (paddingSides useCustomSides name) as [l|]; cbn [some_axial].
    + split.
      * intros [= H]. exists l. split; [done|by apply some_axial_spec].
      * intros (l' & [= <-] & H). f_equal. by apply some_axial_spec.
    + split; [done|by intros (? & ? & ?)].
  - intros l -> [= H] e. apply not_axial_includes in H as [Hv Hh].
    do 3 f_equal. apply map_eq. intros k.
    by rewrite filterGap_lookup, Hv, Hh.
  - intros l -> [= H] values k. apply not_axial_includes in H as [Hv Hh].
    rewrite filter_is_Some, <- !(includes_elem_of l "vertical"),
      <- !(includes_elem_of l "horizontal"), Hv, Hh.
    split; [intros [?|[[? _]|[? _]]]; [done|discriminate..]|auto].
Qed.

Lemma axial_flag_witness :
  setGapValues (fun _ _ => Some ["top"; "left"]) "core/group"
    (VObj (box px4 px4 px4 px4))
  = [Call "core/group" "--wp--style--block-gap" (VObj ∅)].
Proof.
  destruct (axial_flag (fun _ _ => Some ["top"; "left"]) "core/group")
    as (_ & H & _).
  apply (H ["top"; "left"]); reflexivity.
Defined.

Lemma js_and_truthy (a : value) (b : bool) :
  ToBoolean (js_and a (VBool b)) = ToBoolean a && b.
Proof. unfold js_and. by destruct (ToBoolean a) eqn:E. Qed.

Lemma js_or_truthy (a b : value) :
  ToBoolean (js_or a b) = ToBoolean a || ToBoolean b.
Proof. unfold js_or. by destruct (ToBoolean a) eqn:E. Qed.

(** X10: the dimensions panel is shown exactly when, for padding, margin
    or the block gap, the setting of the family is truthy and the block
    supports the family. *)
Theorem dimensions_panel_visible (useSetting : string -> string -> value)
  (ctx : context) :
  ToBoolean (useHasDimensionsPanel useSetting ctx) = true
  ↔ (ToBoolean (useSetting "spacing.customPadding" (ctx_name ctx)) = true
     ∧ "padding" ∈ ctx_supports ctx)
    ∨ (ToBoolean (useSetting "spacing.customMargin" (ctx_name ctx)) = true
       ∧ "margin" ∈ ctx_supports ctx)
    ∨ (ToBoolean (useSetting "spacing.blockGap" (ctx_name ctx)) = true
       ∧ "--wp--style--block-gap" ∈ ctx_supports ctx).
Proof.
  unfold useHasDimensionsPanel, useHasPadding, useHasMargin, useHasGap.
  rewrite !js_or_truthy, !js_and_truthy, !orb_true_iff, !andb_true_iff,
    !includes_elem_of.
  tauto.
Qed.

(** X11: none of the three [hasValue] callbacks throws, whatever the
    store holds; the one of the gap returns 4 for every stored value. *)
Theorem has_value_never_throws (name : string) (st : store) :
  (∃ v, hasPaddingValue name st = Normal v)
  ∧ (∃ v, hasMarginValue name st = Normal v)
  ∧ hasGapValue name st = Normal (VNum (Num 4)).
Proof.
  unfold hasPaddingValue, hasMarginValue, paddingValues, marginValues.
  split_and!; [| |apply has_gap_value_four].
  - destruct (reports_has_keys_split (getStyle st name "padding"))
      as (b & Hb & _).
    destruct (has_keys _); [eauto|discriminate Hb].
  - destruct (reports_has_keys_split (getStyle st name "margin"))
      as (b & Hb & _).
    destruct (has_keys _); [eauto|discriminate Hb].
Qed.

Lemma get_filter_empty (sides : option (list string)) (k : string) :
  get (filterValuesBySides ∅ sides) k = VUndefined.
Proof.
  destruct sides as [l|]; unfold get; [|done].
  rewrite filter_lookup. by destruct (existsb _ l).
Qed.

Lemma splitGap_filter_empty (sides : option (list string)) :
  splitGapStyleValue (VObj (filterGapValuesBySides (VObj ∅) sides))
  = VObj all_absent.
Proof.
  destruct sides as [l|]; [|done].
  assert (∀ k, get (filterGapValuesBySides (VObj ∅) (Some l)) k = VUndefined)
    as H.
  { intros k. unfold get. rewrite filterGap_lookup.
    by destruct (includes l "vertical" && String.eqb k "row"),
         (includes l "horizontal" && String.eqb k "column"). }
  unfold splitGapStyleValue. cbn [ToBoolean typeof opt_get andb].
  cbn [String.eqb Ascii.eqb Bool.eqb]. by rewrite !H.
Qed.

(** X12: after [resetAll], whatever the subsets and the store, every edge
    of the padding and of the margin read back is absent, the gap read
    back is the all-absent mapping, and the styles of other blocks are
    untouched. *)
Theorem reset_all_views_absent
  (useCustomSides : string -> string -> option (list string))
  (name : string) (st : store) :
  let st' := run (resetAll useCustomSides name) st in
  (∀ side, opt_get (paddingValues name st') side = VUndefined)
  ∧ (∀ side, opt_get (marginValues name st') side = VUndefined)
  ∧ gapValues name st' = VObj all_absent
  ∧ (∀ name' path, name' ≠ name ->
       getStyle st' name' path = getStyle st name' path).
Proof.
  cbn zeta.
  unfold resetAll, resetPaddingValue, resetMarginValue, resetGapValue,
    setPaddingValues, setMarginValues, setGapValues, paddingValues,
    marginValues, gapValues, getStyle, run, perform.
  cbn [app foldl call_name call_path call_value].
  split_and!.
  - intros side. rewrite lookup_insert_ne, lookup_insert_ne by congruence.
    rewrite lookup_insert_eq. apply get_filter_empty.
  - intros side. rewrite lookup_insert_ne by congruence.
    rewrite lookup_insert_eq. apply get_filter_empty.
  - rewrite lookup_insert_eq. apply splitGap_filter_empty.
  - intros name' path Hne. by rewrite !lookup_insert_ne by congruence.
Qed.

Lemma reset_all_views_absent_witness :
  gapValues "core/group"
    (run (resetAll (fun _ _ => Some ["top"]) "core/group")
         (<[("core/group", "--wp--style--block-gap") := VStr "2px"]> ∅))
  = VObj all_absent
  ∧ getStyle
      (run (resetAll (fun _ _ => Some ["top"]) "core/group")
           (<[("core/quote", "padding") := px4]> ∅))
      "core/quote" "padding"
    = px4.
Proof.
  split.
  - exact (proj1 (proj2 (proj2
      (reset_all_views_absent (fun _ _ => Some ["top"]) "core/group"
         (<[("core/group", "--wp--style--block-gap") := VStr "2px"]> ∅))))).
  - pose proof (reset_all_views_absent (fun _ _ => Some ["top"]) "core/group"
                  (<[("core/quote", "padding") := px4]> ∅))
      as (_ & _ & _ & H).
    rewrite (H "core/quote" "padding") by discriminate. reflexivity.
Defined.

End PanelMore.

Section BorderMore.

Import Border.



(** X14: [hasBorderRadius] throws exactly when the user radius is [null];
    in every other case it returns a boolean. *)
Theorem radius_throws_iff_null (userBorderStyles : value) :
  (hasBorderRadius userBorderStyles = TypeError
   ↔ opt_get userBorderStyles "radius" = VNull)
  ∧ (hasBorderRadius userBorderStyles = TypeError
     ∨ ∃ b, hasBorderRadius userBorderStyles = Normal (VBool b)).
Proof.
  unfold hasBorderRadius.
  destruct (opt_get userBorderStyles "radius") as [| |b|n|s|o];
    cbn; split; try (split; done); eauto.
Qed.

(** X15: after [resetAll], the width, style, colour and radius read from
    the store are absent, any truthy width edit sets the style to solid
    again, and the styles of other blocks are untouched. *)
Theorem border_reset_all (name : string) (st : store) :
  let st' := run (resetAll name) st in
  borderWidthValue name st' = VUndefined
  ∧ borderStyle name st' = VUndefined
  ∧ borderColor name st' = VUndefined
  ∧ borderRadiusValues name st' = VUndefined
  ∧ (∀ value, ToBoolean value = true ->
       widthOnChange name st' value
       = [Call name "border.style" (VStr "solid");
          Call name "border.width" value])
  ∧ (∀ name' path, name' ≠ name ->
       getStyle st' name' path = getStyle st name' path).
Proof.
  cbn zeta.
  assert (borderStyle name (run (resetAll name) st) = VUndefined) as Hs.
  { unfold borderStyle, resetAll, setBorderColor, setBorderRadius,
      setBorderStyle, setBorderWidth, getStyle, run, perform.
    cbn [app foldl call_name call_path call_value].
    rewrite lookup_insert_ne by congruence. by rewrite lookup_insert_eq. }
  split_and!; try exact Hs.
  - unfold borderWidthValue, resetAll, setBorderColor, setBorderRadius,
      setBorderStyle, setBorderWidth, getStyle, run, perform.
    cbn [app foldl call_name call_path call_value].
    by rewrite lookup_insert_eq.
  - unfold borderColor, resetAll, setBorderColor, setBorderRadius,
      setBorderStyle, setBorderWidth, getStyle, run, perform.
    cbn [app foldl call_name call_path call_value].
    repeat (rewrite lookup_insert_ne by congruence).
    by rewrite lookup_insert_eq.
  - unfold borderRadiusValues, resetAll, setBorderColor, setBorderRadius,
      setBorderStyle, setBorderWidth, getStyle, run, perform.
    cbn [app foldl call_name call_path call_value].
    repeat (rewrite lookup_insert_ne by congruence).
    by rewrite lookup_insert_eq.
  - intros value Hv.
    unfold widthOnChange, handleOnChangeWithStyle, or_undefined.
    by rewrite Hs, Hv.
  - intros name' path Hne.
    unfold resetAll, setBorderColor, setBorderRadius, setBorderStyle,
      setBorderWidth, getStyle, run, perform.
    cbn [app foldl call_name call_path call_value].
    by rewrite !lookup_insert_ne by congruence.
Qed.

Lemma border_reset_all_witness :
  widthOnChange "core/group"
    (run (resetAll "core/group")
         (<[("core/group", "border.style") := VStr "dashed"]> ∅))
    (VStr "2px")
  = [Call "core/group" "border.style" (VStr "solid");
     Call "core/group" "border.width" (VStr "2px")].
Proof.
  pose proof (border_reset_all "core/group"
                (<[("core/group", "border.style") := VStr "dashed"]> ∅))
    as (_ & _ & _ & _ & H & _).
  apply H. reflexivity.
Defined.

(** X16: the border panel is shown exactly when, for the colour, the
    radius, the style or the width, the setting is truthy and the block
    supports the control. *)
Theorem border_panel_visible (useSetting : string -> string -> value)
  (getSupportedGlobalStylesPanels : string -> list string) (name : string) :
  useHasBorderPanel useSetting getSupportedGlobalStylesPanels name = true
  ↔ (ToBoolean (useSetting "border.color" name) = true
     ∧ "borderColor" ∈ getSupportedGlobalStylesPanels name)
    ∨ (ToBoolean (useSetting "border.radius" name) = true
       ∧ "borderRadius" ∈ getSupportedGlobalStylesPanels name)
    ∨ (ToBoolean (useSetting "border.style" name) = true
       ∧ "borderStyle" ∈ getSupportedGlobalStylesPanels name)
    ∨ (ToBoolean (useSetting "border.width" name) = true
       ∧ "borderWidth" ∈ getSupportedGlobalStylesPanels name).
Proof.
  unfold useHasBorderPanel, useHasBorderColorControl,
    useHasBorderRadiusControl, useHasBorderStyleControl,
    useHasBorderWidthControl.
  cbn [existsb].
  rewrite !js_and_truthy, !orb_true_iff, !andb_true_iff, !includes_elem_of.
  intuition discriminate.
Qed.

(** X17: the list of palettes has no palette without colours; its names
    come in the order theme, default, custom; its colours, in order, are
    the theme colours, the default colours when the default palette is
    enabled, and the custom colours; and it is empty exactly when none of
    the three groups is included. *)
Theorem multi_origin_colors (_x : string -> string -> string)
  (customColors themeColors defaultColors : option (list value))
  (defaultPaletteEnabled : value) :
  let result :=
    useMultiOriginColors _x customColors themeColors defaultColors
      defaultPaletteEnabled in
  (∀ p, p ∈ result -> palette_colors p ≠ [])
  ∧ sublist (palette_name <$> result)
      [ _x "Theme" "Indicates this palette comes from the theme.";
        _x "Default" "Indicates this palette comes from WordPress.";
        _x "Custom" "Indicates this palette comes from the theme." ]
  ∧ concat (palette_colors <$> result)
    = default [] themeColors
      ++ (if ToBoolean defaultPaletteEnabled
          then default [] defaultColors else [])
      ++ default [] customColors
  ∧ (result = []
     ↔ has_length themeColors = false
       ∧ ToBoolean defaultPaletteEnabled && has_length defaultColors = false
       ∧ has_length customColors = false).
Proof.
  cbn zeta. unfold useMultiOriginColors.
  destruct themeColors as [[|t ts]|], defaultColors as [[|d ds]|],
    customColors as [[|c cs]|], (ToBoolean defaultPaletteEnabled);
    cbn [has_length andb app default fmap list_fmap concat
         palette_name palette_colors];
    (split_and!;
     [ intros p Hp;
       repeat (apply elem_of_cons in Hp as [->|Hp]); try done;
       by apply elem_of_nil in Hp
     | repeat constructor
     | by rewrite ?app_nil_r
     | split; [try done; by intros _|by intros (? & ? & ?)] ]).
Qed.

Lemma multi_origin_colors_witness :
  palette_colors {| palette_name := "Custom"; palette_colors := [px4] |} ≠ [].
Proof.
  refine (proj1 (multi_origin_colors (fun s _ => s) (Some [px4]) None
                   (Some [px4; px4]) (VBool true)) _ _).
  vm_compute. by repeat constructor.
Defined.

(** X18: [hasBorderRadius] returns what the generic callback
    [createHasValueCallback( 'radius' )] returns, unless the user radius
    is [null] or an object without keys; for the empty object the generic
    callback says true and [hasBorderRadius] says false. *)
Theorem radius_vs_generic (userBorderStyles : value) :
  opt_get userBorderStyles "radius" ≠ VNull ->
  opt_get userBorderStyles "radius" ≠ VObj ∅ ->
  hasBorderRadius userBorderStyles
  = Normal (createHasValueCallback userBorderStyles "radius")
  ∧ hasBorderRadius (VObj (<["radius" := VObj ∅]> ∅)) = Normal (VBool false)
  ∧ createHasValueCallback (VObj (<["radius" := VObj ∅]> ∅)) "radius"
    = VBool true.
Proof.
  intros Hnull Hempty. split; [|by split].
  unfold hasBorderRadius, createHasValueCallback.
  destruct (opt_get userBorderStyles "radius") as [| |b|n|s|o]; try done.
  cbn. rewrite existsb_entries, length_map_to_list. do 2 f_equal.
  apply negb_true_iff, Nat.eqb_neq, map_size_non_empty_iff. congruence.
Qed.

Lemma radius_vs_generic_witness :
  hasBorderRadius (VObj (<["radius" := VStr "4px"]> ∅))
  = Normal (createHasValueCallback (VObj (<["radius" := VStr "4px"]> ∅))
              "radius").
Proof.
  refine (proj1 (radius_vs_generic (VObj (<["radius" := VStr "4px"]> ∅)) _ _));
    vm_compute; discriminate.
Defined.

End BorderMore.
